(** * Shareholder API: a shallow embedding of [app/main.py] and [app/models.py]

    The handlers of [main.py] are embedded as computations in a state and
    exception monad over the [shareholders] collection.  The MongoDB driver
    calls they make ([find_one], [find], [insert_one], [delete_one],
    [find_one_and_update]), [bson.ObjectId] and the validation of a
    returned value against the route's [response_model] are modelled
    beside them; the handlers follow the source line by line. *)

From Stdlib Require Import ZArith NArith Ascii String.
From stdpp Require Import gmap strings list fin_maps.

Local Open Scope string_scope.

(** ** [bson.ObjectId]

    An ObjectId is twelve bytes; it is kept here as the number those bytes
    spell (big endian).  [ObjectId(s)] on a [str] of 24 hexadecimal
    digits, in either case, is the ObjectId they spell; on a [str] whose
    length is not 24, or that holds a character [bytes.fromhex] refuses,
    it raises [InvalidId]; [str(oid)] prints 24 lower-case digits.

    A [str] of length 24 that holds white space is a case apart:
    [bytes.fromhex] skips the white space, and what the driver then
    makes of an id of fewer than twelve bytes is not in the source.
    [ObjectId_of_str] gives [None] on such a string; the statements
    about ids that parse take [ObjectId_of_str id = Some o], which such
    a string never satisfies, and those about ids that raise take
    [surely_malformed], which leaves such strings out. *)

Definition ObjectId : Type := N.

Definition hex_digit (c : ascii) : option N :=
  let n := N_of_ascii c in
  if ((48 <=? n) && (n <=? 57))%N then Some (n - 48)%N
  else if ((97 <=? n) && (n <=? 102))%N then Some (n - 87)%N
  else if ((65 <=? n) && (n <=? 70))%N then Some (n - 55)%N
  else None.

Fixpoint fromhex (s : string) (acc : N) : option N :=
  match s with
  | EmptyString => Some acc
  | String c s' =>
      match hex_digit c with
      | Some d => fromhex s' (16 * acc + d)%N
      | None => None
      end
  end.

Definition ObjectId_of_str (s : string) : option ObjectId :=
  if Nat.eqb (String.length s) 24 then fromhex s 0%N else None.

Definition hex_char (d : N) : ascii :=
  if (d <? 10)%N then ascii_of_N (48 + d) else ascii_of_N (87 + d).

Fixpoint hex_str (n : nat) (v : N) (suffix : string) : string :=
  match n with
  | O => suffix
  | S n' => hex_str n' (v / 16)%N (String (hex_char (v mod 16)%N) suffix)
  end.

Definition ObjectId_str (o : ObjectId) : string := hex_str 24 o "".


(** ** Documents and the collection *)

(** The value of an [_id] entry: the handlers look records up by
    [ObjectId(id)] and, in one place, by the string [id] itself.  The two
    never compare equal in the store. *)
Inductive bson_id :=
  | IdObjectId (o : ObjectId)
  | IdStr (s : string).

(** The values of the other entries of a document: [None], a [str], an
    [int], a [list[int]].  An [int] is Python's, without bound: the
    driver refuses to encode one outside 64 bits (see [bson_encodable]).
    Documents holding entries of other BSON types (doubles, booleans,
    nested documents) are outside this development. *)
Inductive value :=
  | VNone
  | VStr (s : string)
  | VInt (n : Z)
  | VList (l : list Z).

#[global] Instance bson_id_eq_dec : EqDecision bson_id.
Proof. solve_decision. Defined.

#[global] Instance value_eq_dec : EqDecision value.
Proof. solve_decision. Defined.

Definition bson_id_to_sum (k : bson_id) : N + string :=
  match k with IdObjectId o => inl o | IdStr s => inr s end.

Definition bson_id_of_sum (x : N + string) : bson_id :=
  match x with inl o => IdObjectId o | inr s => IdStr s end.

#[global] Instance bson_id_countable : Countable bson_id.
Proof.
  apply (inj_countable' bson_id_to_sum bson_id_of_sum).
  intros []; reflexivity.
Defined.

(** A document as the driver hands it to the handler: a [dict] with its
    [_id] entry and its other entries.  Such a [dict] is never empty, so
    it is truthy. *)
Record document := Document {
  doc_id : bson_id;
  doc_fields : gmap string value;
}.

#[global] Instance document_eq_dec : EqDecision document.
Proof. solve_decision. Defined.

(** The collection: the documents by [_id], which the store keeps unique.
    Each document is stored as its entries other than [_id]. *)
Abbreviation collection := (gmap bson_id (gmap string value)).

(** ** Exceptions and the handler monad *)

Inductive exn :=
  | HTTPException (status_code : nat) (detail : string)
  | InvalidId (oid : string)
  | TypeError
  | OverflowError
  | DuplicateKeyError.

#[global] Instance exn_eq_dec : EqDecision exn.
Proof. solve_decision. Defined.

(** A handler reads and writes the collection and either returns or
    raises; what it wrote before raising stays written. *)
Definition M (A : Type) : Type := collection → (exn + A) * collection.

Definition ret {A} (a : A) : M A := λ c, (inr a, c).

Definition raise {A} (e : exn) : M A := λ c, (inl e, c).

Definition bind {A B} (m : M A) (k : A → M B) : M B :=
  λ c, match m c with
       | (inr a, c') => k a c'
       | (inl e, c') => (inl e, c')
       end.

Notation "'do' x <- m ; k" := (bind m (λ x, k))
  (at level 10, x name, m at level 100, k at level 200,
   format "'[v' 'do'  x  <-  m ; '/' k ']'").

(** An exception raised by a pure computation ([ObjectId(id)], [+]). *)
Definition lift {A} (r : exn + A) : M A := λ c, (r, c).

(** What other requests do to the collection while the handler is
    suspended between two of its [await]s. *)
Definition suspended (others : collection → collection) : M unit :=
  λ c, (inr tt, others c).

(** [ObjectId(id)], raising [InvalidId]. *)
Definition ObjectId_new (id : string) : exn + ObjectId :=
  match ObjectId_of_str id with
  | Some o => inr o
  | None => inl (InvalidId id)
  end.

(** ** The driver calls *)

(** The driver encodes an [int] in four or eight bytes and raises
    [OverflowError] for one that fits in neither; this happens while the
    command is built, before anything is sent to the store. *)
Definition int64 (n : Z) : bool :=
  ((- 2 ^ 63 <=? n) && (n <? 2 ^ 63))%Z.

Definition bson_encodable_value (v : value) : bool :=
  match v with
  | VInt n => int64 n
  | VList l => forallb int64 l
  | VNone | VStr _ => true
  end.

Definition bson_encodable (f : gmap string value) : bool :=
  bool_decide (map_Forall (λ _ v, bson_encodable_value v = true) f).

(** [collection.find_one({"_id": k})] *)
Definition find_one (k : bson_id) : M (option document) :=
  λ c, (inr (Document k <$> c !! k), c).

(** [collection.find().to_list(length=None)] *)
Definition find_to_list : M (list document) :=
  λ c, (inr ((λ kf, Document kf.1 kf.2) <$> map_to_list c), c).

(** [collection.insert_one(d)] for a [d] without [_id]: the driver
    generates the ObjectId [oid], encodes the document (raising
    [OverflowError] if it cannot) and returns [oid] as [inserted_id];
    the store refuses an [_id] it already holds. *)
Definition insert_one (oid : ObjectId) (d : gmap string value) : M ObjectId :=
  λ c, if bson_encodable d then
         match c !! IdObjectId oid with
         | None => (inr oid, <[IdObjectId oid := d]> c)
         | Some _ => (inl DuplicateKeyError, c)
         end
       else (inl OverflowError, c).

(** [collection.delete_one({"_id": k})], returning [deleted_count]. *)
Definition delete_one (k : bson_id) : M nat :=
  λ c, match c !! k with
       | Some _ => (inr 1, delete k c)
       | None => (inr 0, c)
       end.

(** [collection.find_one_and_update({"_id": k}, {"$set": upd},
    return_document=ReturnDocument.AFTER)]: the command is encoded
    (raising [OverflowError] if [upd] cannot be) before any look-up; the
    entries of [upd] replace or extend those of the document, the
    others stay; no upsert. *)
Definition find_one_and_update (k : bson_id) (upd : gmap string value)
  : M (option document) :=
  λ c, if bson_encodable upd then
         match c !! k with
         | Some f => (inr (Some (Document k (upd ∪ f))), <[k := upd ∪ f]> c)
         | None => (inr None, c)
         end
       else (inl OverflowError, c).

(** ** [models.py] *)

Module ShareholderModel.
Record t := {
  id : option string;
  name : string;
  shares : Z;
  transactions : list Z;
}.

(** [model_dump(by_alias=True, exclude=["id"])] *)
Definition model_dump_exclude_id (m : t) : gmap string value :=
  <["name" := VStr (name m)]>
    (<["shares" := VInt (shares m)]>
       (<["transactions" := VList (transactions m)]> ∅)).
End ShareholderModel.

Module UpdateShareholderModel.
Record t := {
  name : option string;
  shares : option Z;
  transactions : option (list Z);
}.

(** A field left at [None] is dumped as [None]. *)
Definition dump_field {A} (inj : A → value) (x : option A) : value :=
  match x with Some a => inj a | None => VNone end.

(** [model_dump(by_alias=True)] *)
Definition model_dump (m : t) : gmap string value :=
  <["name" := dump_field VStr (name m)]>
    (<["shares" := dump_field VInt (shares m)]>
       (<["transactions" := dump_field VList (transactions m)]> ∅)).
End UpdateShareholderModel.

(** ** [main.py] *)

(** [fastapi.responses.Response(status_code=...)], with no content. *)
Record Response := { status_code : nat; content : string }.

(** [f"Shareholder {id} not found"] *)
Definition not_found (id : string) : string :=
  "Shareholder " ++ id ++ " not found".

(** What a handler may return, with the check the framework runs on the
    returned value before it answers: the validation against the
    [response_model] of the route, or none for a [Response]. *)
Class ResponseModel (A : Type) := response_valid : A → bool.

(** A [Response] is sent as it is. *)
#[global] Instance Response_model : ResponseModel Response := λ _, true.

(** The status the framework answers with.  When the handler returns:
    the route's own status if the returned value passes the check, 500
    if it does not (by then the handler has run, and what it wrote
    stays written).  When it raises: the status of an [HTTPException],
    500 for any other exception. *)
Definition http_status {A} `{ResponseModel A} (route_status : nat)
    (r : exn + A) : nat :=
  match r with
  | inr a => if response_valid a then route_status else 500
  | inl (HTTPException sc _) => sc
  | inl _ => 500
  end.

(** Python's [+] on the values of a document. *)
Definition py_add (x y : value) : exn + value :=
  match x, y with
  | VInt a, VInt b => inr (VInt (a + b))
  | VList a, VList b => inr (VList (a ++ b))
  | VStr a, VStr b => inr (VStr (a ++ b))
  | _, _ => inl TypeError
  end.

(** [d.get(key, default)] *)
Definition dict_get (d : document) (key : string) (default : value) : value :=
  match doc_fields d !! key with
  | Some v => v
  | None => default
  end.

Definition get_shareholder (id : string) : M document :=
  do o <- lift (ObjectId_new id);
  do shareholder <- find_one (IdObjectId o);
  match shareholder with
  | Some d => ret d
  | None => raise (HTTPException 404 (not_found id))
  end.

Definition get_all_shareholders : M (list document) :=
  do shareholders <- find_to_list;
  ret shareholders.

(** [oid] is the ObjectId the driver generates in [insert_one]; [others]
    is what happens to the collection between the two [await]s. *)
Definition create_shareholder_among (others : collection → collection)
    (oid : ObjectId) (shareholder : ShareholderModel.t) : M (option document) :=
  do inserted_id <-
    insert_one oid (ShareholderModel.model_dump_exclude_id shareholder);
  do _ <- suspended others;
  do created_shareholder <- find_one (IdObjectId inserted_id);
  ret created_shareholder.

Definition create_shareholder := create_shareholder_among (λ c, c).

Definition delete_shareholder (id : string) : M Response :=
  do o <- lift (ObjectId_new id);
  do deleted_count <- delete_one (IdObjectId o);
  if Nat.eqb deleted_count 1
  then ret {| status_code := 204; content := "" |}
  else raise (HTTPException 404 (not_found id)).

(** [{k: v for k, v in shareholder.model_dump(by_alias=True).items()
    if v is not None}] *)
Definition non_null_fields (shareholder : UpdateShareholderModel.t)
  : gmap string value :=
  filter (λ kv, kv.2 ≠ VNone) (UpdateShareholderModel.model_dump shareholder).

Definition update_shareholder (id : string)
    (shareholder : UpdateShareholderModel.t) : M document :=
  let shareholder := non_null_fields shareholder in
  if Nat.leb 1 (size shareholder) then
    do o <- lift (ObjectId_new id);
    do update_result <- find_one_and_update (IdObjectId o) shareholder;
    match update_result with
    | Some d => ret d
    | None => raise (HTTPException 404 (not_found id))
    end
  else
    do existing_shareholder <- find_one (IdStr id);
    match existing_shareholder with
    | Some d => ret d
    | None => raise (HTTPException 404 (not_found id))
    end.

(** [others] is what happens to the collection between the fetch and
    the update. *)
Definition append_transaction_among (others : collection → collection)
    (id : string) (transaction : Z) : M document :=
  do o <- lift (ObjectId_new id);
  do shareholder <- find_one (IdObjectId o);
  match shareholder with
  | None => raise (HTTPException 404 (not_found id))
  | Some shareholder =>
      do updated_transactions <-
        lift (py_add (dict_get shareholder "transactions" (VList []))
                     (VList [transaction]));
      do updated_shares <-
        lift (py_add (dict_get shareholder "shares" (VInt 0)) (VInt transaction));
      do _ <- suspended others;
      do o' <- lift (ObjectId_new id);
      do update_result <-
        find_one_and_update (IdObjectId o')
          (<["transactions" := updated_transactions]>
             (<["shares" := updated_shares]> ∅));
      match update_result with
      | Some d => ret d
      | None => raise (HTTPException 404 (not_found id))
      end
  end.

Definition append_transaction := append_transaction_among (λ c, c).


(** ** Definitions the statements below use *)

(** Python's [sum] over a [list[int]]. *)
Definition sum_list (l : list Z) : Z := foldr Z.add 0%Z l.

(** The [shares] and the [transactions] of a stored record that holds
    them, and the part of its shares that its transactions do not
    account for. *)
Definition shares_of (f : gmap string value) : option Z :=
  match f !! "shares" with Some (VInt s) => Some s | _ => None end.

Definition transactions_of (f : gmap string value) : option (list Z) :=
  match f !! "transactions" with Some (VList l) => Some l | _ => None end.

Definition baseline (f : gmap string value) : option Z :=
  match shares_of f, transactions_of f with
  | Some s, Some l => Some (s - sum_list l)%Z
  | _, _ => None
  end.

(** Every [_id] of the collection is an ObjectId: so it is for a
    collection filled through [create_shareholder]. *)
Definition ObjectId_keys (c : collection) : Prop :=
  ∀ s, c !! IdStr s = None.

(** The request body [{}]: every field absent. *)
Definition empty_update : UpdateShareholderModel.t :=
  {| UpdateShareholderModel.name := None;
     UpdateShareholderModel.shares := None;
     UpdateShareholderModel.transactions := None |}.

(** The record of the scenario: [{"name": "Alice", "shares": 100,
    "transactions": [100]}]. *)
Definition alice : ShareholderModel.t :=
  {| ShareholderModel.id := None;
     ShareholderModel.name := "Alice";
     ShareholderModel.shares := 100;
     ShareholderModel.transactions := [100%Z] |}.

Definition alice_oid : ObjectId := 255%N.

Definition alice_id : string := "0000000000000000000000ff".

(** A collection holding that record alone. *)
Definition alice_only : collection :=
  {[ IdObjectId alice_oid := ShareholderModel.model_dump_exclude_id alice ]}.

(** A collection holding, under the same ObjectId, a document with a
    name and nothing else. *)
Definition name_only : collection :=
  {[ IdObjectId alice_oid := {[ "name" := VStr "Alice" ]} ]}.

(** The request body [{"shares": 5}]. *)
Definition shares_5 : UpdateShareholderModel.t :=
  {| UpdateShareholderModel.name := None;
     UpdateShareholderModel.shares := Some 5%Z;
     UpdateShareholderModel.transactions := None |}.

(** ** The routes, served one request at a time *)

(** [read_root]: the body of the health check. *)
Definition read_root : gmap string string := {[ "Hello" := "World" ]}.

(** A request to one of the routes of [app].  A create request carries
    the ObjectId the driver will generate for it. *)
Inductive request :=
  | ReadRoot
  | GetShareholder (id : string)
  | GetAllShareholders
  | CreateShareholder (oid : ObjectId) (shareholder : ShareholderModel.t)
  | DeleteShareholder (id : string)
  | UpdateShareholder (id : string) (shareholder : UpdateShareholderModel.t)
  | AppendTransaction (id : string) (transaction : Z).

(** The status of a [Response] the handler returns is its own. *)
Definition response_status (r : exn + Response) : nat :=
  match r with
  | inr resp => status_code resp
  | inl e => http_status 200 (inl e : exn + Response)
  end.

(** The collection a request leaves, with no other request in
    between. *)
Definition serve (r : request) (c : collection) : collection :=
  match r with
  | ReadRoot => c
  | GetShareholder id => (get_shareholder id c).2
  | GetAllShareholders => (get_all_shareholders c).2
  | CreateShareholder oid shareholder =>
      (create_shareholder oid shareholder c).2
  | DeleteShareholder id => (delete_shareholder id c).2
  | UpdateShareholder id shareholder =>
      (update_shareholder id shareholder c).2
  | AppendTransaction id transaction =>
      (append_transaction id transaction c).2
  end.

(** The collection after a sequence of requests. *)
Definition serve_all (rs : list request) (c : collection) : collection :=
  foldl (λ c r, serve r c) c rs.

(** The requests that write when they succeed. *)
Definition writes (r : request) : bool :=
  match r with
  | CreateShareholder _ _ | DeleteShareholder _
  | UpdateShareholder _ _ | AppendTransaction _ _ => true
  | ReadRoot | GetShareholder _ | GetAllShareholders => false
  end.

(** A stored document with the three fields of [ShareholderModel], each
    of its declared type. *)
Definition is_shareholder (f : gmap string value) : bool :=
  match f !! "name", f !! "shares", f !! "transactions" with
  | Some (VStr _), Some (VInt _), Some (VList _) => true
  | _, _, _ => false
  end.

Definition shareholder_records (c : collection) : Prop :=
  ∀ k f, c !! k = Some f → is_shareholder f = true.

(** An id that is not 24 hexadecimal digits. *)
Definition malformed_id : string := "not-an-id".



(** A stored document whose [transactions] entry is null. *)
Definition null_transactions : collection :=
  {[ IdObjectId alice_oid :=
       <["transactions" := VNone]>
         (ShareholderModel.model_dump_exclude_id alice) ]}.

(** How many fields of an update payload are not null. *)
Definition fields_given (u : UpdateShareholderModel.t) : nat :=
  (match UpdateShareholderModel.name u with Some _ => 1 | None => 0 end)
  + (match UpdateShareholderModel.shares u with Some _ => 1 | None => 0 end)
  + (match UpdateShareholderModel.transactions u with
     | Some _ => 1
     | None => 0
     end).

(** The request body [{"name": "", "shares": 0, "transactions": []}]. *)
Definition falsy_update : UpdateShareholderModel.t :=
  {| UpdateShareholderModel.name := Some "";
     UpdateShareholderModel.shares := Some 0%Z;
     UpdateShareholderModel.transactions := Some [] |}.

(** Every integer of every stored record fits in 64 bits, as it does
    for what the store decodes. *)
Definition encodable_records (c : collection) : Prop :=
  ∀ k f, c !! k = Some f → bson_encodable f = true.

(** The largest [shares] the store can hold, on the record of the
    scenario. *)
Definition max_shares : collection :=
  {[ IdObjectId alice_oid :=
       <["shares" := VInt (2 ^ 63 - 1)]>
         (ShareholderModel.model_dump_exclude_id alice) ]}.

(** A payload [ShareholderModel] accepts and the driver cannot encode. *)
Definition too_big : ShareholderModel.t :=
  {| ShareholderModel.id := None;
     ShareholderModel.name := "Alice";
     ShareholderModel.shares := 2 ^ 63;
     ShareholderModel.transactions := [] |}.



(** ASCII white space, which [bytes.fromhex] skips. *)
Definition is_space (a : ascii) : bool :=
  let n := N_of_ascii a in
  ((n =? 32) || ((9 <=? n) && (n <=? 13)))%N.

Fixpoint has_foreign_char (s : string) : bool :=
  match s with
  | EmptyString => false
  | String a s' =>
      (negb (is_space a) && negb (bool_decide (is_Some (hex_digit a))))
      || has_foreign_char s'
  end.

(** An id [ObjectId] refuses whatever the treatment of white space: its
    length is not 24, or one of its characters is neither a hexadecimal
    digit nor white space. *)
Definition surely_malformed (id : string) : bool :=
  negb (Nat.eqb (String.length id) 24) || has_foreign_char id.



(** ** The response model *)

Section Served.

(** Pydantic, in its lax mode, reads some strings as integers; which
    ones is left open here. *)
Variable int_from_str : string → option Z.

(** The validation of a returned [dict] against [ShareholderModel]:
    [_id] is made a string by [BeforeValidator(str)]; [name], [shares]
    and [transactions] are required; entries the model does not declare
    are ignored. *)
Definition valid_name (v : option value) : bool :=
  match v with Some (VStr _) => true | _ => false end.

Definition valid_shares (v : option value) : bool :=
  match v with
  | Some (VInt _) => true
  | Some (VStr s) => bool_decide (is_Some (int_from_str s))
  | _ => false
  end.

Definition valid_transactions (v : option value) : bool :=
  match v with Some (VList _) => true | _ => false end.

Definition ShareholderModel_validate (d : document) : bool :=
  valid_name (doc_fields d !! "name")
  && valid_shares (doc_fields d !! "shares")
  && valid_transactions (doc_fields d !! "transactions").

(** [response_model=ShareholderModel] *)
#[local] Instance document_model : ResponseModel document :=
  ShareholderModel_validate.

(** [response_model=list[ShareholderModel]] *)
#[local] Instance list_document_model : ResponseModel (list document) :=
  forallb ShareholderModel_validate.

(** [create_shareholder] returns what [find_one] gave it: [None] is no
    [ShareholderModel]. *)
#[local] Instance option_document_model : ResponseModel (option document) :=
  λ x, match x with Some d => ShareholderModel_validate d | None => false end.

(** The status answered to a request and the collection it leaves,
    with no other request in between. *)
Definition handle (r : request) (c : collection) : nat * collection :=
  (match r with
   | ReadRoot => 200
   | GetShareholder id => http_status 200 (get_shareholder id c).1
   | GetAllShareholders => http_status 200 (get_all_shareholders c).1
   | CreateShareholder oid shareholder =>
       http_status 201 (create_shareholder oid shareholder c).1
   | DeleteShareholder id => response_status (delete_shareholder id c).1
   | UpdateShareholder id shareholder =>
       http_status 200 (update_shareholder id shareholder c).1
   | AppendTransaction id transaction =>
       http_status 200 (append_transaction id transaction c).1
   end, serve r c).

(** * Properties *)

(** ** [ObjectId]: printing then parsing *)





(** ** Running a handler *)

Lemma ObjectId_new_parsed (id : string) (o : ObjectId) :
  ObjectId_of_str id = Some o → ObjectId_new id = inr o.
Proof. intros H. unfold ObjectId_new. rewrite H. reflexivity. Qed.

Lemma alice_id_parsed : ObjectId_of_str alice_id = Some alice_oid.
Proof. reflexivity. Qed.

Lemma alice_only_lookup :
  alice_only !! IdObjectId alice_oid
  = Some (ShareholderModel.model_dump_exclude_id alice).
Proof. apply lookup_singleton_eq. Qed.

(** Unfolds the monad and the driver calls of a handler applied to a
    collection. *)
Ltac run_handler :=
  unfold bind, lift, ret, raise, suspended,
    find_one, find_to_list, insert_one, delete_one, find_one_and_update.

(** ** What the driver can encode *)

Lemma bson_encodable_true (f : gmap string value) :
  bson_encodable f = true
  ↔ ∀ k v, f !! k = Some v → bson_encodable_value v = true.
Proof.
  unfold bson_encodable. rewrite bool_decide_eq_true. apply map_Forall_lookup.
Qed.

Lemma bson_encodable_false (f : gmap string value) (k : string) (v : value) :
  f !! k = Some v → bson_encodable_value v = false → bson_encodable f = false.
Proof.
  intros Hk Hv. destruct (bson_encodable f) eqn:Hf; [|reflexivity].
  rewrite bson_encodable_true in Hf. rewrite (Hf k v Hk) in Hv. discriminate.
Qed.

Lemma bson_encodable_model_dump (sh : ShareholderModel.t) :
  bson_encodable (ShareholderModel.model_dump_exclude_id sh)
  = int64 (ShareholderModel.shares sh)
    && forallb int64 (ShareholderModel.transactions sh).
Proof.
  unfold ShareholderModel.model_dump_exclude_id.
  destruct (int64 (ShareholderModel.shares sh)) eqn:Hs.
  - destruct (forallb int64 (ShareholderModel.transactions sh)) eqn:Hl.
    + apply bson_encodable_true. intros k v.
      rewrite !lookup_insert, lookup_empty.
      repeat case_decide; intros [= <-]; done.
    + apply (bson_encodable_false _ "transactions"
               (VList (ShareholderModel.transactions sh))); [|exact Hl].
      by rewrite 2!lookup_insert_ne, lookup_insert_eq.
  - apply (bson_encodable_false _ "shares"
             (VInt (ShareholderModel.shares sh))); [|exact Hs].
    by rewrite lookup_insert_ne, lookup_insert_eq.
Qed.

Lemma bson_encodable_set (l : list Z) (s : Z) :
  bson_encodable
    (<["transactions" := VList l]> (<["shares" := VInt s]> ∅))
  = int64 s && forallb int64 l.
Proof.
  destruct (int64 s) eqn:Hs.
  - destruct (forallb int64 l) eqn:Hl.
    + apply bson_encodable_true. intros k v.
      rewrite !lookup_insert, lookup_empty.
      repeat case_decide; intros [= <-]; done.
    + apply (bson_encodable_false _ "transactions" (VList l)); [|exact Hl].
      by rewrite lookup_insert_eq.
  - apply (bson_encodable_false _ "shares" (VInt s)); [|exact Hs].
    by rewrite lookup_insert_ne, lookup_insert_eq.
Qed.


Lemma alice_encodable :
  bson_encodable (ShareholderModel.model_dump_exclude_id alice) = true.
Proof. by rewrite bson_encodable_model_dump. Qed.

(** A record with its three fields passes the validation, whatever
    strings are read as integers. *)
Lemma is_shareholder_validate (k : bson_id) (f : gmap string value) :
  is_shareholder f = true → ShareholderModel_validate (Document k f) = true.
Proof.
  unfold is_shareholder, ShareholderModel_validate. cbn [doc_fields].
  destruct (f !! "name") as [[| n | |]|]; try discriminate.
  destruct (f !! "shares") as [[| | s |]|]; try discriminate.
  destruct (f !! "transactions") as [[| | | l]|]; try discriminate.
  reflexivity.
Qed.

Lemma is_shareholder_model_dump (sh : ShareholderModel.t) :
  is_shareholder (ShareholderModel.model_dump_exclude_id sh) = true.
Proof. reflexivity. Qed.

(** ** Get by id *)

Lemma get_shareholder_run id o (c : collection) :
  ObjectId_of_str id = Some o →
  get_shareholder id c
  = match c !! IdObjectId o with
    | Some f => (inr (Document (IdObjectId o) f), c)
    | None => (inl (HTTPException 404 (not_found id)), c)
    end.
Proof.
  intros Hid. unfold get_shareholder. run_handler.
  rewrite (ObjectId_new_parsed _ _ Hid).
  destruct (c !! IdObjectId o); reflexivity.
Qed.

(** C6. For an id that parses as an ObjectId, [get_shareholder] returns
    the stored record exactly when the collection holds a record under
    that ObjectId, and raises the 404 exception exactly when it holds
    none; the collection is left as it was.  The returned record is
    answered with status 200 if it passes the validation against
    [ShareholderModel], as every record with its three fields does, and
    with 500 if it does not. *)
Theorem get_shareholder_200_iff_stored (id : string) (o : ObjectId)
    (c : collection) :
  ObjectId_of_str id = Some o →
  (∀ f, c !! IdObjectId o = Some f
        ↔ get_shareholder id c = (inr (Document (IdObjectId o) f), c))
  ∧ (c !! IdObjectId o = None
     ↔ get_shareholder id c = (inl (HTTPException 404 (not_found id)), c))
  ∧ (∀ f, c !! IdObjectId o = Some f →
          http_status 200 (get_shareholder id c).1
          = if ShareholderModel_validate (Document (IdObjectId o) f)
            then 200 else 500)
  ∧ (∀ f, c !! IdObjectId o = Some f → is_shareholder f = true →
          http_status 200 (get_shareholder id c).1 = 200)
  ∧ (c !! IdObjectId o = None
     ↔ http_status 200 (get_shareholder id c).1 = 404).
Proof.
  intros Hid. rewrite (get_shareholder_run id o c Hid).
  destruct (c !! IdObjectId o) as [f0|] eqn:Hc; cbn [fst http_status].
  - split; [intros f; split; congruence|].
    split; [split; discriminate|].
    split; [by intros f [= <-]|].
    split.
    + intros f [= <-] Hf. unfold response_valid, document_model.
      by rewrite (is_shareholder_validate _ _ Hf).
    + split; [discriminate|].
      unfold response_valid, document_model.
      destruct (ShareholderModel_validate _); discriminate.
  - split; [intros f; split; discriminate|].
    split; [done|]. split; [discriminate|]. split; [discriminate|]. done.
Qed.

(** ** Get all *)

(** C7. [get_all_shareholders] returns on every collection: its result
    lists exactly the stored records, each once, and is the empty list
    on the empty collection.  The list is answered with status 200 when
    every stored record has its three fields. *)
Theorem get_all_shareholders_never_fails :
  (∀ c : collection,
     ∃ l, get_all_shareholders c = (inr l, c)
          ∧ (∀ d, d ∈ l ↔ c !! doc_id d = Some (doc_fields d))
          ∧ NoDup l
          ∧ length l = size c
          ∧ (shareholder_records c →
             http_status 200 (get_all_shareholders c).1 = 200))
  ∧ get_all_shareholders ∅ = (inr [], ∅)
  ∧ http_status 200 (get_all_shareholders ∅).1 = 200.
Proof.
  split; [|split].
  - intros c.
    exists ((λ kf, Document kf.1 kf.2) <$> map_to_list c).
    split; [reflexivity|].
    split; [|split; [|split]].
    + intros [k f]. rewrite list_elem_of_fmap. cbn. split.
      * intros [[k' f'] [Heq Hin]]. cbn in Heq.
        injection Heq as -> ->. by apply elem_of_map_to_list in Hin.
      * intros Hk. exists (k, f). split; [reflexivity|].
        by apply elem_of_map_to_list.
    + apply NoDup_fmap_2; [|apply NoDup_map_to_list].
      intros [k1 f1] [k2 f2]. cbn. congruence.
    + rewrite length_fmap. apply length_map_to_list.
    + intros Hc. unfold get_all_shareholders. run_handler.
      cbn [fst http_status]. unfold response_valid, list_document_model.
      replace (forallb ShareholderModel_validate
                 ((λ kf, Document kf.1 kf.2) <$> map_to_list c))
        with true; [reflexivity|].
      symmetry. apply forallb_forall. intros d Hd.
      apply list_elem_of_In, list_elem_of_fmap in Hd
        as [[k f] [-> Hin]].
      apply elem_of_map_to_list in Hin. cbn.
      apply is_shareholder_validate, (Hc _ _ Hin).
  - unfold get_all_shareholders. run_handler.
    rewrite map_to_list_empty. reflexivity.
  - unfold get_all_shareholders. run_handler.
    rewrite map_to_list_empty. reflexivity.
Qed.

(** ** Delete *)

(** C5. With a record stored under the id, a first [delete_shareholder]
    returns the empty 204 response and removes the record (leaving the
    others), and a second one, run on the collection the first left,
    raises the 404 exception. *)
Theorem delete_shareholder_twice (id : string) (o : ObjectId) (c : collection) :
  ObjectId_of_str id = Some o →
  is_Some (c !! IdObjectId o) →
  let c1 := (delete_shareholder id c).2 in
  (delete_shareholder id c).1 = inr {| status_code := 204; content := "" |}
  ∧ c1 = delete (IdObjectId o) c
  ∧ c1 !! IdObjectId o = None
  ∧ delete_shareholder id c1 = (inl (HTTPException 404 (not_found id)), c1)
  ∧ http_status 200 (delete_shareholder id c1).1 = 404.
Proof.
  intros Hid [f Hf] c1.
  assert (H1 : delete_shareholder id c
               = (inr {| status_code := 204; content := "" |},
                  delete (IdObjectId o) c)).
  { unfold delete_shareholder. run_handler.
    rewrite (ObjectId_new_parsed _ _ Hid), Hf. reflexivity. }
  assert (Hc1 : c1 = delete (IdObjectId o) c) by (unfold c1; by rewrite H1).
  assert (Hgone : c1 !! IdObjectId o = None)
    by (rewrite Hc1; apply lookup_delete_eq).
  assert (H2 : delete_shareholder id c1
               = (inl (HTTPException 404 (not_found id)), c1)).
  { unfold delete_shareholder. run_handler.
    rewrite (ObjectId_new_parsed _ _ Hid), Hgone. reflexivity. }
  rewrite H1, H2. auto.
Qed.

Lemma delete_shareholder_twice_witness :
  ObjectId_of_str alice_id = Some alice_oid
  ∧ is_Some (alice_only !! IdObjectId alice_oid)
  ∧ (delete_shareholder alice_id alice_only).1
    = inr {| status_code := 204; content := "" |}
  ∧ http_status 200
      (delete_shareholder alice_id
         (delete_shareholder alice_id alice_only).2).1 = 404.
Proof.
  split; [reflexivity|]. split; [by eexists|].
  pose proof (delete_shareholder_twice alice_id alice_oid alice_only
                alice_id_parsed (mk_is_Some _ _ alice_only_lookup)) as H.
  cbv zeta in H. destruct H as (H1 & _ & _ & _ & H5).
  split; [exact H1 | exact H5].
Defined.

(** ** Append transaction *)

Lemma sum_list_snoc (l : list Z) (v : Z) :
  sum_list (l ++ [v]) = (sum_list l + v)%Z.
Proof.
  unfold sum_list. induction l as [|x l IH]; simpl; [lia|].
  rewrite IH. lia.
Qed.

Lemma py_add_raises (x y : value) (e : exn) :
  py_add x y = inl e → e = TypeError.
Proof. destruct x, y; cbn; congruence. Qed.

(** The [$set] of the two new values, applied to the stored entries. *)
Lemma set_transactions_shares (ut us : value) (f : gmap string value) :
  <["transactions" := ut]> (<["shares" := us]> ∅) ∪ f
  = <["transactions" := ut]> (<["shares" := us]> f).
Proof.
  rewrite <- !insert_union_l. by rewrite (left_id_L ∅ (∪)).
Qed.

(** The run of the handler once the fetch has found a record and both
    sums are defined: the update raises if the new values cannot be
    encoded, and otherwise the outcome is decided by its look-up. *)
Lemma append_transaction_among_fetched others id o v (c : collection) f ut us :
  ObjectId_of_str id = Some o →
  c !! IdObjectId o = Some f →
  py_add (dict_get (Document (IdObjectId o) f) "transactions" (VList []))
         (VList [v]) = inr ut →
  py_add (dict_get (Document (IdObjectId o) f) "shares" (VInt 0)) (VInt v)
    = inr us →
  append_transaction_among others id v c
  = if bson_encodable (<["transactions" := ut]> (<["shares" := us]> ∅))
    then match others c !! IdObjectId o with
         | Some f' =>
             let f'' := <["transactions" := ut]> (<["shares" := us]> f') in
             (inr (Document (IdObjectId o) f''),
              <[IdObjectId o := f'']> (others c))
         | None => (inl (HTTPException 404 (not_found id)), others c)
         end
    else (inl OverflowError, others c).
Proof.
  intros Hid Hf Hut Hus.
  unfold append_transaction_among. run_handler.
  rewrite (ObjectId_new_parsed _ _ Hid), Hf. cbn [fmap option_fmap option_map].
  rewrite Hut, Hus.
  destruct (bson_encodable _); [|reflexivity].
  destruct (others c !! IdObjectId o) as [f'|]; [|reflexivity].
  cbv zeta. by rewrite set_transactions_shares.
Qed.

Lemma append_transaction_absent others id o v (c : collection) :
  ObjectId_of_str id = Some o →
  c !! IdObjectId o = None →
  append_transaction_among others id v c
  = (inl (HTTPException 404 (not_found id)), c).
Proof.
  intros Hid Hf. unfold append_transaction_among. run_handler.
  rewrite (ObjectId_new_parsed _ _ Hid), Hf. reflexivity.
Qed.

(** The uncontended run. *)
Lemma append_transaction_run id o v (c : collection) f ut us :
  ObjectId_of_str id = Some o →
  c !! IdObjectId o = Some f →
  py_add (dict_get (Document (IdObjectId o) f) "transactions" (VList []))
         (VList [v]) = inr ut →
  py_add (dict_get (Document (IdObjectId o) f) "shares" (VInt 0)) (VInt v)
    = inr us →
  append_transaction id v c
  = if bson_encodable (<["transactions" := ut]> (<["shares" := us]> ∅))
    then (inr (Document (IdObjectId o)
                 (<["transactions" := ut]> (<["shares" := us]> f))),
          <[IdObjectId o := <["transactions" := ut]> (<["shares" := us]> f)]> c)
    else (inl OverflowError, c).
Proof.
  intros Hid Hf Hut Hus. unfold append_transaction.
  rewrite (append_transaction_among_fetched _ _ _ _ _ _ _ _ Hid Hf Hut Hus).
  rewrite Hf. reflexivity.
Qed.

(** The same for a record that holds both entries. *)
Lemma append_transaction_typed id o v (c : collection) f s l :
  ObjectId_of_str id = Some o →
  c !! IdObjectId o = Some f →
  f !! "shares" = Some (VInt s) →
  f !! "transactions" = Some (VList l) →
  let f' := <["transactions" := VList (l ++ [v])]>
              (<["shares" := VInt (s + v)]> f) in
  append_transaction id v c
  = if int64 (s + v) && forallb int64 (l ++ [v])
    then (inr (Document (IdObjectId o) f'), <[IdObjectId o := f']> c)
    else (inl OverflowError, c).
Proof.
  intros Hid Hf Hs Hl f'.
  rewrite (append_transaction_run id o v c f (VList (l ++ [v]))
             (VInt (s + v)) Hid Hf);
    [| unfold dict_get; cbn [doc_fields]; by rewrite Hl
     | unfold dict_get; cbn [doc_fields]; by rewrite Hs].
  by rewrite bson_encodable_set.
Qed.

Lemma append_transaction_fits id o v (c : collection) f s l :
  ObjectId_of_str id = Some o →
  c !! IdObjectId o = Some f →
  f !! "shares" = Some (VInt s) →
  f !! "transactions" = Some (VList l) →
  int64 (s + v) = true →
  forallb int64 (l ++ [v]) = true →
  let f' := <["transactions" := VList (l ++ [v])]>
              (<["shares" := VInt (s + v)]> f) in
  append_transaction id v c
  = (inr (Document (IdObjectId o) f'), <[IdObjectId o := f']> c).
Proof.
  intros Hid Hf Hs Hl Hfit1 Hfit2 f'.
  rewrite (append_transaction_typed id o v c f s l Hid Hf Hs Hl).
  by rewrite Hfit1, Hfit2.
Qed.




Lemma baseline_Some (f : gmap string value) (b : Z) :
  baseline f = Some b →
  ∃ s l, f !! "shares" = Some (VInt s)
         ∧ f !! "transactions" = Some (VList l)
         ∧ b = (s - sum_list l)%Z.
Proof.
  unfold baseline, shares_of, transactions_of.
  destruct (f !! "shares") as [[| |s|]|]; try discriminate.
  destruct (f !! "transactions") as [[| | |l]|]; try discriminate.
  intros [= <-]. eauto.
Qed.

(** C3. When [append_transaction] succeeds on a stored record with
    shares and transactions, the record it returns is the one it
    stored, and it has the same difference [shares - sum(transactions)]
    as the record found. *)
Theorem append_transaction_keeps_baseline (id : string) (o : ObjectId) (v : Z)
    (c c' : collection) (f : gmap string value) (b : Z) (d : document) :
  ObjectId_of_str id = Some o →
  c !! IdObjectId o = Some f →
  baseline f = Some b →
  append_transaction id v c = (inr d, c') →
  c' !! IdObjectId o = Some (doc_fields d)
  ∧ baseline (doc_fields d) = Some b.
Proof.
  intros Hid Hf Hb.
  destruct (baseline_Some f b Hb) as (s & l & Hs & Hl & ->).
  rewrite (append_transaction_typed id o v c f s l Hid Hf Hs Hl).
  destruct (int64 (s + v) && forallb int64 (l ++ [v])); [|discriminate].
  cbv zeta. intros [= <- <-]. cbn [doc_fields].
  split; [apply lookup_insert_eq|].
  unfold baseline, shares_of, transactions_of.
  rewrite lookup_insert_ne, !lookup_insert_eq by done.
  rewrite sum_list_snoc. f_equal. lia.
Qed.

Lemma append_transaction_keeps_baseline_witness :
  ObjectId_of_str alice_id = Some alice_oid
  ∧ alice_only !! IdObjectId alice_oid
    = Some (ShareholderModel.model_dump_exclude_id alice)
  ∧ baseline (ShareholderModel.model_dump_exclude_id alice) = Some 0%Z
  ∧ ∃ d c', append_transaction alice_id (-20) alice_only = (inr d, c')
            ∧ baseline (doc_fields d) = Some 0%Z.
Proof.
  split; [reflexivity|]. split; [apply alice_only_lookup|].
  split; [reflexivity|].
  pose proof (append_transaction_fits alice_id alice_oid (-20) alice_only
                (ShareholderModel.model_dump_exclude_id alice) 100 [100%Z]
                alice_id_parsed alice_only_lookup eq_refl eq_refl
                eq_refl eq_refl) as Hrun.
  cbv zeta in Hrun. eexists _, _. split; [exact Hrun|].
  apply (append_transaction_keeps_baseline alice_id alice_oid (-20)
           alice_only _ (ShareholderModel.model_dump_exclude_id alice) 0 _
           alice_id_parsed alice_only_lookup eq_refl Hrun).
Defined.



(** C9. [append_transaction] raises the 404 exception at either of its
    two checks: at the first, when the fetch finds no record under the
    id; at the second, when the fetch found one and the new values were
    computed and encoded, but the update (after what other requests did
    in between) finds none.  With nothing in between the second check
    never fires: the status is 404 exactly when the fetch finds no
    record. *)
Theorem append_transaction_404_checks (id : string) (o : ObjectId) (v : Z) :
  ObjectId_of_str id = Some o →
  (∀ others (c : collection),
     c !! IdObjectId o = None →
     append_transaction_among others id v c
     = (inl (HTTPException 404 (not_found id)), c))
  ∧ (∀ others (c : collection) f ut us,
       c !! IdObjectId o = Some f →
       py_add (dict_get (Document (IdObjectId o) f) "transactions" (VList []))
              (VList [v]) = inr ut →
       py_add (dict_get (Document (IdObjectId o) f) "shares" (VInt 0))
              (VInt v) = inr us →
       bson_encodable (<["transactions" := ut]> (<["shares" := us]> ∅))
       = true →
       others c !! IdObjectId o = None →
       append_transaction_among others id v c
       = (inl (HTTPException 404 (not_found id)), others c))
  ∧ (∀ c : collection,
       http_status 200 (append_transaction id v c).1 = 404
       ↔ c !! IdObjectId o = None).
Proof.
  intros Hid. split; [|split].
  - intros others c Hc. by apply (append_transaction_absent _ _ o).
  - intros others c f ut us Hf Hut Hus Henc Hgone.
    rewrite (append_transaction_among_fetched _ _ _ _ _ _ _ _ Hid Hf Hut Hus).
    by rewrite Henc, Hgone.
  - intros c. destruct (c !! IdObjectId o) as [f|] eqn:Hf.
    + split; [|discriminate]. intros H404. exfalso. revert H404.
      unfold append_transaction, append_transaction_among. run_handler.
      rewrite (ObjectId_new_parsed _ _ Hid), Hf.
      cbn [fmap option_fmap option_map].
      destruct (py_add _ (VList [v])) as [e|ut] eqn:Hut;
        [by rewrite (py_add_raises _ _ _ Hut)|].
      destruct (py_add _ (VInt v)) as [e|us] eqn:Hus;
        [by rewrite (py_add_raises _ _ _ Hus)|].
      destruct (bson_encodable _); [|discriminate].
      rewrite Hf. cbn [fst http_status].
      destruct (response_valid _); discriminate.
    + split; [reflexivity|]. intros _.
      unfold append_transaction.
      by rewrite (append_transaction_absent _ _ _ _ _ Hid Hf).
Qed.

(** ** Partial update *)

Lemma non_null_fields_lookup (u : UpdateShareholderModel.t) (k : string) :
  non_null_fields u !! k
  = if decide ("name" = k) then VStr <$> UpdateShareholderModel.name u
    else if decide ("shares" = k) then VInt <$> UpdateShareholderModel.shares u
    else if decide ("transactions" = k)
         then VList <$> UpdateShareholderModel.transactions u
    else None.
Proof.
  unfold non_null_fields, UpdateShareholderModel.model_dump.
  rewrite map_lookup_filter, !lookup_insert, lookup_empty.
  destruct u as [n s t]; cbn.
  repeat case_decide; [destruct n|destruct s|destruct t|]; reflexivity.
Qed.


Lemma size_non_null_fields (u : UpdateShareholderModel.t) :
  is_Some (UpdateShareholderModel.name u)
  ∨ is_Some (UpdateShareholderModel.shares u)
  ∨ is_Some (UpdateShareholderModel.transactions u) →
  Nat.leb 1 (size (non_null_fields u)) = true.
Proof.
  intros H.
  assert (size (non_null_fields u) ≠ 0); [|apply Nat.leb_le; lia].
  apply map_size_ne_0_lookup.
  destruct H as [[x H]|[[x H]|[x H]]];
    [exists "name"|exists "shares"|exists "transactions"];
    rewrite non_null_fields_lookup; cbn; rewrite H; by eexists.
Qed.

Lemma update_shareholder_nonempty id o (c : collection) u :
  ObjectId_of_str id = Some o →
  Nat.leb 1 (size (non_null_fields u)) = true →
  update_shareholder id u c
  = if bson_encodable (non_null_fields u)
    then match c !! IdObjectId o with
         | Some f =>
             (inr (Document (IdObjectId o) (non_null_fields u ∪ f)),
              <[IdObjectId o := non_null_fields u ∪ f]> c)
         | None => (inl (HTTPException 404 (not_found id)), c)
         end
    else (inl OverflowError, c).
Proof.
  intros Hid Hsize. unfold update_shareholder. cbv zeta. rewrite Hsize.
  run_handler. rewrite (ObjectId_new_parsed _ _ Hid).
  destruct (bson_encodable _); [|reflexivity].
  destruct (c !! IdObjectId o); reflexivity.
Qed.

(** The branch for the empty update looks the record up under the
    string [id] itself, not under [ObjectId(id)]. *)
Lemma update_shareholder_empty id (c : collection) :
  update_shareholder id empty_update c
  = match c !! IdStr id with
    | Some f => (inr (Document (IdStr id) f), c)
    | None => (inl (HTTPException 404 (not_found id)), c)
    end.
Proof.
  unfold update_shareholder. cbv zeta.
  replace (non_null_fields empty_update) with (∅ : gmap string value)
    by reflexivity.
  rewrite map_size_empty. cbn [Nat.leb]. run_handler.
  destruct (c !! IdStr id); reflexivity.
Qed.

Lemma lookup_non_null_fields_union (u : UpdateShareholderModel.t)
    (f : gmap string value) (k : string) :
  (non_null_fields u ∪ f) !! k
  = match non_null_fields u !! k with
    | Some x => Some x
    | None => f !! k
    end.
Proof.
  rewrite lookup_union.
  destruct (non_null_fields u !! k), (f !! k); reflexivity.
Qed.



Lemma update_shareholder_empty_ObjectId id o (c : collection) f :
  ObjectId_of_str id = Some o →
  c !! IdObjectId o = Some f →
  c !! IdStr id = None →
  update_shareholder id empty_update c
  = (inl (HTTPException 404 (not_found id)), c).
Proof.
  intros _ _ Hstr. rewrite update_shareholder_empty. by rewrite Hstr.
Qed.

(** ** Create *)

(** The handlers keep every [_id] an ObjectId. *)
Lemma ObjectId_keys_empty : ObjectId_keys ∅.
Proof. intros s. apply lookup_empty. Qed.

Lemma ObjectId_keys_insert o f (c : collection) :
  ObjectId_keys c → ObjectId_keys (<[IdObjectId o := f]> c).
Proof. intros Hc s. by rewrite lookup_insert_ne. Qed.

Lemma ObjectId_keys_delete k (c : collection) :
  ObjectId_keys c → ObjectId_keys (delete k c).
Proof.
  intros Hc s. destruct (decide (k = IdStr s)) as [->|Hne].
  - apply lookup_delete_eq.
  - by rewrite lookup_delete_ne.
Qed.

Lemma create_shareholder_run oid sh (c : collection) :
  create_shareholder oid sh c
  = if bson_encodable (ShareholderModel.model_dump_exclude_id sh)
    then match c !! IdObjectId oid with
         | None =>
             (inr (Some (Document (IdObjectId oid)
                           (ShareholderModel.model_dump_exclude_id sh))),
              <[IdObjectId oid := ShareholderModel.model_dump_exclude_id sh]> c)
         | Some _ => (inl DuplicateKeyError, c)
         end
    else (inl OverflowError, c).
Proof.
  unfold create_shareholder, create_shareholder_among. run_handler.
  destruct (bson_encodable _); [|reflexivity].
  destruct (c !! IdObjectId oid); [reflexivity|].
  by rewrite lookup_insert_eq.
Qed.

Lemma create_shareholder_ObjectId_keys oid sh (c : collection) :
  ObjectId_keys c → ObjectId_keys (create_shareholder oid sh c).2.
Proof.
  intros Hc. rewrite create_shareholder_run.
  destruct (bson_encodable _); [|done].
  destruct (c !! IdObjectId oid); cbn; [done|].
  by apply ObjectId_keys_insert.
Qed.

Lemma delete_shareholder_ObjectId_keys id (c : collection) :
  ObjectId_keys c → ObjectId_keys (delete_shareholder id c).2.
Proof.
  intros Hc. unfold delete_shareholder. run_handler.
  destruct (ObjectId_new id) as [e|o]; cbn; [done|].
  destruct (c !! IdObjectId o); cbn; [|done].
  by apply ObjectId_keys_delete.
Qed.

Lemma update_shareholder_ObjectId_keys id u (c : collection) :
  ObjectId_keys c → ObjectId_keys (update_shareholder id u c).2.
Proof.
  intros Hc. unfold update_shareholder. cbv zeta.
  destruct (Nat.leb 1 (size (non_null_fields u))); run_handler.
  - destruct (ObjectId_new id) as [e|o]; cbn; [done|].
    destruct (bson_encodable _); [|done].
    destruct (c !! IdObjectId o); cbn; [|done].
    by apply ObjectId_keys_insert.
  - by destruct (c !! IdStr id).
Qed.

Lemma append_transaction_ObjectId_keys id v (c : collection) :
  ObjectId_keys c → ObjectId_keys (append_transaction id v c).2.
Proof.
  intros Hc. unfold append_transaction, append_transaction_among. run_handler.
  destruct (ObjectId_new id) as [e|o]; cbn; [done|].
  destruct (c !! IdObjectId o) as [f|] eqn:Hf; cbn; [|done].
  destruct (py_add _ (VList [v])); cbn; [done|].
  destruct (py_add _ (VInt v)); cbn; [done|].
  destruct (bson_encodable _); [|done].
  rewrite Hf. cbn. by apply ObjectId_keys_insert.
Qed.

(** On such a collection the empty update finds no record, whatever
    the id. *)
Lemma update_shareholder_empty_ObjectId_keys id (c : collection) :
  ObjectId_keys c →
  update_shareholder id empty_update c
  = (inl (HTTPException 404 (not_found id)), c).
Proof. intros Hc. rewrite update_shareholder_empty. by rewrite Hc. Qed.

Lemma create_shareholder_fresh oid sh (c : collection) :
  c !! IdObjectId oid = None →
  bson_encodable (ShareholderModel.model_dump_exclude_id sh) = true →
  let f := ShareholderModel.model_dump_exclude_id sh in
  create_shareholder oid sh c
  = (inr (Some (Document (IdObjectId oid) f)), <[IdObjectId oid := f]> c).
Proof.
  intros Hfresh Henc f. rewrite create_shareholder_run.
  by rewrite Henc, Hfresh.
Qed.

(** C1. The record the create handler stored in an empty collection is
    returned by [get_shareholder] for its id, while [update_shareholder]
    for the same id with the empty payload raises the 404 exception
    (leaving the collection as it was). *)
Theorem update_shareholder_empty_payload_is_404 :
  let c := (create_shareholder alice_oid alice ∅).2 in
  let f := ShareholderModel.model_dump_exclude_id alice in
  ObjectId_str alice_oid = alice_id
  ∧ c !! IdObjectId alice_oid = Some f
  ∧ get_shareholder alice_id c = (inr (Document (IdObjectId alice_oid) f), c)
  ∧ update_shareholder alice_id empty_update c
    = (inl (HTTPException 404 (not_found alice_id)), c)
  ∧ http_status 200 (update_shareholder alice_id empty_update c).1 = 404.
Proof.
  cbv zeta.
  rewrite (create_shareholder_fresh _ _ _ (lookup_empty _) alice_encodable).
  cbn [snd]. rewrite insert_empty. fold alice_only.
  split; [reflexivity|]. split; [apply alice_only_lookup|].
  split.
  - unfold get_shareholder. run_handler.
    rewrite (ObjectId_new_parsed _ _ alice_id_parsed), alice_only_lookup.
    reflexivity.
  - rewrite (update_shareholder_empty_ObjectId alice_id alice_oid alice_only _
               alice_id_parsed alice_only_lookup); [split; reflexivity|].
    apply lookup_singleton_ne. discriminate.
Qed.



(** * Further properties of the handlers *)

(** ** Malformed ids *)

Lemma ObjectId_new_malformed (id : string) :
  ObjectId_of_str id = None → ObjectId_new id = inl (InvalidId id).
Proof. intros H. unfold ObjectId_new. by rewrite H. Qed.

Lemma fromhex_foreign_char (s : string) (acc : N) :
  has_foreign_char s = true → fromhex s acc = None.
Proof.
  revert acc. induction s as [|a s IH]; intros acc; cbn; [discriminate|].
  destruct (hex_digit a) as [d|] eqn:Ha.
  - rewrite bool_decide_eq_true_2 by eauto.
    rewrite andb_false_r. cbn. apply IH.
  - reflexivity.
Qed.

Lemma surely_malformed_None (id : string) :
  surely_malformed id = true → ObjectId_of_str id = None.
Proof.
  unfold surely_malformed, ObjectId_of_str.
  destruct (Nat.eqb (String.length id) 24); cbn; [|reflexivity].
  apply fromhex_foreign_char.
Qed.

(** X1. An id whose length is not 24, or that holds a character that is
    neither a hexadecimal digit nor white space, makes
    [get_shareholder], [delete_shareholder], [append_transaction] and
    [update_shareholder] with a field given raise [InvalidId] (status
    500, not 404) before the store is touched; [update_shareholder]
    with the empty payload never builds the ObjectId and does not raise
    it. *)
Theorem malformed_id_raises_InvalidId (id : string) (c : collection) :
  surely_malformed id = true →
  get_shareholder id c = (inl (InvalidId id), c)
  ∧ delete_shareholder id c = (inl (InvalidId id), c)
  ∧ (∀ v, append_transaction id v c = (inl (InvalidId id), c))
  ∧ (∀ u, is_Some (UpdateShareholderModel.name u)
          ∨ is_Some (UpdateShareholderModel.shares u)
          ∨ is_Some (UpdateShareholderModel.transactions u) →
          update_shareholder id u c = (inl (InvalidId id), c))
  ∧ http_status 200 (get_shareholder id c).1 = 500
  ∧ (update_shareholder id empty_update c).1 ≠ inl (InvalidId id).
Proof.
  intros Hid.
  pose proof (ObjectId_new_malformed id (surely_malformed_None id Hid))
    as Hnew.
  assert (Hget : get_shareholder id c = (inl (InvalidId id), c)).
  { unfold get_shareholder. run_handler. by rewrite Hnew. }
  split; [exact Hget|].
  split.
  { unfold delete_shareholder. run_handler. by rewrite Hnew. }
  split.
  { intros v. unfold append_transaction, append_transaction_among.
    run_handler. by rewrite Hnew. }
  split.
  { intros u Hu. unfold update_shareholder. cbv zeta.
    rewrite (size_non_null_fields u Hu). run_handler. by rewrite Hnew. }
  split; [by rewrite Hget|].
  rewrite update_shareholder_empty. by destruct (c !! IdStr id).
Qed.

(** ** Requests that fail, requests that read *)

Lemma get_shareholder_reads id (c : collection) :
  (get_shareholder id c).2 = c.
Proof.
  unfold get_shareholder. run_handler.
  destruct (ObjectId_new id) as [e|o]; [reflexivity|].
  by destruct (c !! IdObjectId o).
Qed.

Lemma delete_shareholder_run id o (c : collection) :
  ObjectId_of_str id = Some o →
  delete_shareholder id c
  = match c !! IdObjectId o with
    | Some _ => (inr {| status_code := 204; content := "" |},
                 delete (IdObjectId o) c)
    | None => (inl (HTTPException 404 (not_found id)), c)
    end.
Proof.
  intros Hid. unfold delete_shareholder. run_handler.
  rewrite (ObjectId_new_parsed _ _ Hid).
  destruct (c !! IdObjectId o); reflexivity.
Qed.

Lemma delete_shareholder_outcome id (c : collection) :
  (∃ o, delete_shareholder id c
        = (inr {| status_code := 204; content := "" |},
           delete (IdObjectId o) c))
  ∨ (∃ e, delete_shareholder id c = (inl e, c)).
Proof.
  unfold delete_shareholder. run_handler.
  destruct (ObjectId_new id) as [e|o]; [right; by eexists|].
  destruct (c !! IdObjectId o); [left|right]; by eexists.
Qed.

Lemma update_shareholder_outcome id u (c : collection) :
  (∃ d, update_shareholder id u c = (inr d, c))
  ∨ (∃ o f, c !! IdObjectId o = Some f
            ∧ update_shareholder id u c
              = (inr (Document (IdObjectId o) (non_null_fields u ∪ f)),
                 <[IdObjectId o := non_null_fields u ∪ f]> c))
  ∨ (∃ e, update_shareholder id u c = (inl e, c)).
Proof.
  unfold update_shareholder. cbv zeta.
  destruct (Nat.leb 1 (size (non_null_fields u))); run_handler.
  - destruct (ObjectId_new id) as [e|o]; [right; right; by eexists|].
    destruct (bson_encodable _); [|right; right; by eexists].
    destruct (c !! IdObjectId o) as [f|] eqn:Hf.
    + right. left. by exists o, f.
    + right. right. by eexists.
  - destruct (c !! IdStr id); [left|right; right]; by eexists.
Qed.

Lemma append_transaction_outcome id v (c : collection) :
  (∃ o f ut us, ObjectId_of_str id = Some o
      ∧ c !! IdObjectId o = Some f
      ∧ append_transaction id v c
        = (inr (Document (IdObjectId o)
                  (<["transactions" := ut]> (<["shares" := us]> f))),
           <[IdObjectId o := <["transactions" := ut]> (<["shares" := us]> f)]> c))
  ∨ (∃ e, append_transaction id v c = (inl e, c)).
Proof.
  destruct (ObjectId_of_str id) as [o|] eqn:Hid.
  - destruct (c !! IdObjectId o) as [f|] eqn:Hf.
    + destruct (py_add (dict_get (Document (IdObjectId o) f) "transactions"
                          (VList [])) (VList [v])) as [e|ut] eqn:Hut.
      { right. exists e. unfold append_transaction, append_transaction_among.
        run_handler. rewrite (ObjectId_new_parsed _ _ Hid), Hf.
        cbn [fmap option_fmap option_map]. by rewrite Hut. }
      destruct (py_add (dict_get (Document (IdObjectId o) f) "shares"
                          (VInt 0)) (VInt v)) as [e|us] eqn:Hus.
      { right. exists e. unfold append_transaction, append_transaction_among.
        run_handler. rewrite (ObjectId_new_parsed _ _ Hid), Hf.
        cbn [fmap option_fmap option_map]. by rewrite Hut, Hus. }
      rewrite (append_transaction_run id o v c f ut us Hid Hf Hut Hus).
      destruct (bson_encodable _); [left|right; by eexists].
      by exists o, f, ut, us.
    + right. eexists. unfold append_transaction.
      by apply (append_transaction_absent _ _ o).
  - right. eexists. unfold append_transaction, append_transaction_among.
    run_handler. by rewrite (ObjectId_new_malformed _ Hid).
Qed.

(** ** Records with their three fields *)

Lemma is_shareholder_true (f : gmap string value) :
  is_shareholder f = true
  ↔ ∃ n s l, f !! "name" = Some (VStr n)
             ∧ f !! "shares" = Some (VInt s)
             ∧ f !! "transactions" = Some (VList l).
Proof.
  unfold is_shareholder. split.
  - destruct (f !! "name") as [[| n | |]|]; try discriminate.
    destruct (f !! "shares") as [[| | s |]|]; try discriminate.
    destruct (f !! "transactions") as [[| | | l]|]; try discriminate.
    intros _. by exists n, s, l.
  - intros (n & s & l & -> & -> & ->). reflexivity.
Qed.

Lemma is_shareholder_update (u : UpdateShareholderModel.t)
    (f : gmap string value) :
  is_shareholder f = true → is_shareholder (non_null_fields u ∪ f) = true.
Proof.
  rewrite !is_shareholder_true. intros (n & s & l & Hn & Hs & Hl).
  rewrite !lookup_non_null_fields_union, !non_null_fields_lookup. cbn.
  destruct u as [[n'|] [s'|] [l'|]]; cbn; rewrite ?Hn, ?Hs, ?Hl;
    by eexists _, _, _.
Qed.

Lemma is_shareholder_append (f : gmap string value) (s : Z) (l : list Z) :
  is_shareholder f = true →
  is_shareholder (<["transactions" := VList l]> (<["shares" := VInt s]> f))
  = true.
Proof.
  rewrite !is_shareholder_true. intros (n & s0 & l0 & Hn & _ & _).
  exists n, s, l. split; [by rewrite 2!lookup_insert_ne|].
  split; [by rewrite lookup_insert_ne, lookup_insert_eq|].
  by rewrite lookup_insert_eq.
Qed.

(** On a record with its three fields the append either writes the new
    values or, when they cannot be encoded, raises [OverflowError]. *)
Lemma append_transaction_shareholder id o v (c : collection) f :
  ObjectId_of_str id = Some o →
  c !! IdObjectId o = Some f →
  is_shareholder f = true →
  ∃ s l, f !! "shares" = Some (VInt s)
         ∧ f !! "transactions" = Some (VList l)
         ∧ append_transaction id v c
           = if int64 (s + v) && forallb int64 (l ++ [v])
             then (inr (Document (IdObjectId o)
                          (<["transactions" := VList (l ++ [v])]>
                             (<["shares" := VInt (s + v)]> f))),
                   <[IdObjectId o :=
                       <["transactions" := VList (l ++ [v])]>
                         (<["shares" := VInt (s + v)]> f)]> c)
             else (inl OverflowError, c).
Proof.
  intros Hid Hf (n & s & l & _ & Hs & Hl)%is_shareholder_true.
  exists s, l. split; [exact Hs|]. split; [exact Hl|].
  exact (append_transaction_typed id o v c f s l Hid Hf Hs Hl).
Qed.

(** X2. On a collection whose records have their three fields, a
    request changes the collection only if it is a create, a delete, an
    update or an append and it is answered with a success status: the
    two reads and every request that fails leave the collection as it
    was. *)
Theorem handle_writes_only_on_success (r : request) (c : collection) :
  shareholder_records c →
  (handle r c).2 ≠ c →
  writes r = true ∧ (handle r c).1 < 400.
Proof.
  intros Hc.
  destruct r as [|id| |oid sh|id|id u|id v];
    cbn [handle serve writes fst snd].
  - intros H. by destruct H.
  - intros H. destruct H. apply get_shareholder_reads.
  - intros H. by destruct H.
  - rewrite create_shareholder_run.
    destruct (bson_encodable _); [|intros H; by destruct H].
    destruct (c !! IdObjectId oid); [intros H; by destruct H|].
    intros _. split; [done|]. cbn [fst http_status].
    unfold response_valid, option_document_model.
    rewrite is_shareholder_validate by apply is_shareholder_model_dump. lia.
  - destruct (delete_shareholder_outcome id c) as [[o ->]|[e ->]];
      cbn; intros H; [split; [done|lia] | by destruct H].
  - destruct (update_shareholder_outcome id u c)
      as [[d ->]|[(o & f & Hf & ->)|[e ->]]];
      cbn [fst snd]; intros H; [by destruct H | | by destruct H].
    split; [done|]. cbn [http_status].
    unfold response_valid, document_model.
    rewrite is_shareholder_validate
      by apply is_shareholder_update, (Hc _ _ Hf). lia.
  - destruct (append_transaction_outcome id v c)
      as [(o & f & ut & us & Hid & Hf & _)|[e ->]];
      [|cbn; intros H; by destruct H].
    destruct (append_transaction_shareholder id o v c f Hid Hf (Hc _ _ Hf))
      as (s & l & _ & _ & ->).
    destruct (int64 (s + v) && forallb int64 (l ++ [v]));
      cbn [fst snd]; intros H; [|by destruct H].
    split; [done|]. cbn [http_status].
    unfold response_valid, document_model.
    rewrite is_shareholder_validate
      by apply is_shareholder_append, (Hc _ _ Hf). lia.
Qed.

(** ** Two appends *)




Lemma serve_all_cons (r : request) (rs : list request) (c : collection) :
  serve_all (r :: rs) c = serve_all rs (serve r c).
Proof. reflexivity. Qed.




(** ** A write, then a read *)

Lemma get_shareholder_stored id o (c : collection) f :
  ObjectId_of_str id = Some o →
  get_shareholder id (<[IdObjectId o := f]> c)
  = (inr (Document (IdObjectId o) f), <[IdObjectId o := f]> c).
Proof.
  intros Hid. rewrite (get_shareholder_run id o _ Hid).
  by rewrite lookup_insert_eq.
Qed.

(** X5. Read your writes: when [update_shareholder] with a field given,
    or [append_transaction], returns a record, [get_shareholder] for
    the same id, run next, returns that same record. *)
Theorem get_shareholder_after_write (id : string) (c : collection)
    (d : document) :
  (∀ u, is_Some (UpdateShareholderModel.name u)
        ∨ is_Some (UpdateShareholderModel.shares u)
        ∨ is_Some (UpdateShareholderModel.transactions u) →
        (update_shareholder id u c).1 = inr d →
        (get_shareholder id (update_shareholder id u c).2).1 = inr d)
  ∧ (∀ v, (append_transaction id v c).1 = inr d →
          (get_shareholder id (append_transaction id v c).2).1 = inr d).
Proof.
  split.
  - intros u Hu. destruct (ObjectId_of_str id) as [o|] eqn:Hid.
    + rewrite (update_shareholder_nonempty id o c u Hid
                 (size_non_null_fields u Hu)).
      destruct (bson_encodable _); [|discriminate].
      destruct (c !! IdObjectId o) as [f|]; cbn [fst snd]; [|discriminate].
      intros [= <-]. by rewrite (get_shareholder_stored id o c _ Hid).
    + unfold update_shareholder. cbv zeta.
      rewrite (size_non_null_fields u Hu). run_handler.
      rewrite (ObjectId_new_malformed id Hid). discriminate.
  - intros v.
    destruct (append_transaction_outcome id v c)
      as [(o & f & ut & us & Hid & Hf & Hrun)|[e Hrun]];
      rewrite Hrun; cbn [fst snd]; [|discriminate].
    intros [= <-].
    by rewrite (get_shareholder_stored id o c _ Hid).
Qed.

Lemma get_shareholder_after_write_witness :
  (append_transaction alice_id (-20) alice_only).1
  = inr (Document (IdObjectId alice_oid)
           (<["transactions" := VList [100; -20]%Z]>
              (<["shares" := VInt 80]>
                 (ShareholderModel.model_dump_exclude_id alice))))
  ∧ (get_shareholder alice_id
       (append_transaction alice_id (-20) alice_only).2).1
    = inr (Document (IdObjectId alice_oid)
             (<["transactions" := VList [100; -20]%Z]>
                (<["shares" := VInt 80]>
                   (ShareholderModel.model_dump_exclude_id alice)))).
Proof.
  assert (H : (append_transaction alice_id (-20) alice_only).1
              = inr (Document (IdObjectId alice_oid)
                       (<["transactions" := VList [100; -20]%Z]>
                          (<["shares" := VInt 80]>
                             (ShareholderModel.model_dump_exclude_id alice))))).
  { rewrite (append_transaction_fits alice_id alice_oid (-20) alice_only
               (ShareholderModel.model_dump_exclude_id alice) 100 [100%Z]
               alice_id_parsed alice_only_lookup eq_refl eq_refl
               eq_refl eq_refl).
    reflexivity. }
  split; [exact H|].
  apply (get_shareholder_after_write alice_id alice_only _), H.
Defined.

(** ** Update: repeated, and on an absent record *)

(** X6. [update_shareholder] is idempotent: run a second time with the
    same id and payload, on the collection the first run left, it
    gives the same outcome (the same record or the same exception) and
    leaves that collection as it is. *)
Theorem update_shareholder_idempotent (id : string)
    (u : UpdateShareholderModel.t) (c : collection) :
  update_shareholder id u (update_shareholder id u c).2
  = update_shareholder id u c.
Proof.
  unfold update_shareholder. cbv zeta.
  destruct (Nat.leb 1 (size (non_null_fields u))); run_handler.
  - destruct (ObjectId_new id) as [e|o]; [reflexivity|].
    destruct (bson_encodable _); [|reflexivity].
    destruct (c !! IdObjectId o) as [f|] eqn:Hf; cbn [snd].
    + rewrite lookup_insert_eq, insert_insert_eq.
      by rewrite (assoc_L (∪)), (idemp_L (∪)).
    + by rewrite Hf.
  - destruct (c !! IdStr id) as [f|] eqn:Hf; cbn; by rewrite Hf.
Qed.


(** ** Delete *)

(** X8. For an id that parses, [delete_shareholder] answers 204 exactly
    when a record is stored under the id and 404 exactly when none is;
    it removes that record and no other. *)
Theorem delete_shareholder_removes_one (id : string) (o : ObjectId)
    (c : collection) :
  ObjectId_of_str id = Some o →
  (is_Some (c !! IdObjectId o)
   ↔ response_status (delete_shareholder id c).1 = 204)
  ∧ (c !! IdObjectId o = None
     ↔ response_status (delete_shareholder id c).1 = 404)
  ∧ (delete_shareholder id c).2 !! IdObjectId o = None
  ∧ (∀ k, k ≠ IdObjectId o → (delete_shareholder id c).2 !! k = c !! k)
  ∧ (is_Some (c !! IdObjectId o) →
     S (size (delete_shareholder id c).2) = size c).
Proof.
  intros Hid. rewrite (delete_shareholder_run id o c Hid).
  destruct (c !! IdObjectId o) as [f|] eqn:Hf; cbn.
  - split; [split; [done|by eexists]|].
    split; [split; discriminate|].
    split; [apply lookup_delete_eq|].
    split; [intros k Hk; by rewrite lookup_delete_ne|].
    intros _. rewrite map_size_delete, Hf.
    assert (size c ≠ 0) by (apply map_size_ne_0_lookup; eauto).
    lia.
  - split; [split; [by intros [? ?]|discriminate]|].
    split; [done|]. split; [done|]. split; [done|]. by intros [? ?].
Qed.

Lemma delete_shareholder_removes_one_witness :
  ObjectId_of_str alice_id = Some alice_oid
  ∧ response_status (delete_shareholder alice_id alice_only).1 = 204
  ∧ (delete_shareholder alice_id alice_only).2 !! IdObjectId alice_oid = None.
Proof.
  split; [reflexivity|].
  destruct (delete_shareholder_removes_one alice_id alice_oid alice_only)
    as (H1 & _ & H3 & _); [reflexivity|].
  split; [|exact H3]. apply H1. rewrite alice_only_lookup. by eexists.
Defined.

(** ** Create *)





(** ** What the collection holds after any sequence of requests *)

Lemma shareholder_records_insert k f (c : collection) :
  shareholder_records c → is_shareholder f = true →
  shareholder_records (<[k := f]> c).
Proof.
  intros Hc Hf k' f'. rewrite lookup_insert. case_decide.
  - by intros [= <-].
  - apply Hc.
Qed.

Lemma shareholder_records_delete k (c : collection) :
  shareholder_records c → shareholder_records (delete k c).
Proof.
  intros Hc k' f'. rewrite lookup_delete. case_decide; [done|]. apply Hc.
Qed.

Lemma serve_shareholder_records (r : request) (c : collection) :
  shareholder_records c → shareholder_records (serve r c).
Proof.
  intros Hc.
  destruct r as [|id| |oid sh|id|id u|id v]; cbn [serve].
  - exact Hc.
  - rewrite get_shareholder_reads. exact Hc.
  - exact Hc.
  - rewrite create_shareholder_run.
    destruct (bson_encodable _); [|exact Hc].
    destruct (c !! IdObjectId oid); [exact Hc|]. cbn [snd].
    apply shareholder_records_insert; [exact Hc|].
    apply is_shareholder_model_dump.
  - destruct (delete_shareholder_outcome id c) as [[o ->]|[e ->]];
      cbn [snd]; [|exact Hc].
    apply shareholder_records_delete, Hc.
  - destruct (update_shareholder_outcome id u c)
      as [[d ->]|[(o & f & Hf & ->)|[e ->]]]; cbn [snd];
      [exact Hc| |exact Hc].
    apply shareholder_records_insert; [exact Hc|].
    apply is_shareholder_update, (Hc _ _ Hf).
  - destruct (append_transaction_outcome id v c)
      as [(o & f & ut & us & Hid & Hf & _)|[e ->]]; cbn [snd]; [|exact Hc].
    destruct (append_transaction_shareholder id o v c f Hid Hf (Hc _ _ Hf))
      as (s & l & _ & _ & ->).
    destruct (int64 (s + v) && forallb int64 (l ++ [v])); cbn [snd];
      [|exact Hc].
    apply shareholder_records_insert; [exact Hc|].
    apply is_shareholder_append, (Hc _ _ Hf).
Qed.

Lemma serve_ObjectId_keys (r : request) (c : collection) :
  ObjectId_keys c → ObjectId_keys (serve r c).
Proof.
  intros Hc.
  destruct r as [|id| |oid sh|id|id u|id v]; cbn [serve].
  - exact Hc.
  - rewrite get_shareholder_reads. exact Hc.
  - exact Hc.
  - apply create_shareholder_ObjectId_keys, Hc.
  - apply delete_shareholder_ObjectId_keys, Hc.
  - apply update_shareholder_ObjectId_keys, Hc.
  - apply append_transaction_ObjectId_keys, Hc.
Qed.

(** X11. The requests keep the collection well formed: if every stored
    record has an ObjectId as [_id] and a [name] that is a string, a
    [shares] that is an integer and a [transactions] that is a list of
    integers, so it is after any sequence of requests; in particular
    from the empty collection. *)
Theorem serve_all_keeps_shareholder_records (rs : list request)
    (c : collection) :
  shareholder_records c →
  ObjectId_keys c →
  shareholder_records (serve_all rs c) ∧ ObjectId_keys (serve_all rs c).
Proof.
  revert c. induction rs as [|r rs IH]; intros c Hrec Hkeys; [done|].
  rewrite serve_all_cons. apply IH.
  - by apply serve_shareholder_records.
  - by apply serve_ObjectId_keys.
Qed.

Lemma shareholder_records_empty : shareholder_records ∅.
Proof. intros k f. by rewrite lookup_empty. Qed.

Lemma serve_all_keeps_shareholder_records_witness :
  shareholder_records ∅
  ∧ ObjectId_keys ∅
  ∧ shareholder_records
      (serve_all [CreateShareholder alice_oid alice;
                  AppendTransaction alice_id (-20);
                  UpdateShareholder alice_id shares_5] ∅).
Proof.
  split; [apply shareholder_records_empty|].
  split; [apply ObjectId_keys_empty|].
  apply (serve_all_keeps_shareholder_records _ ∅
           shareholder_records_empty ObjectId_keys_empty).
Defined.

(** X13. After any sequence of requests on an initially empty
    collection, [update_shareholder] with the empty payload raises the
    404 exception for every id, whether a record is stored under it or
    not, and leaves the collection as it is. *)
Theorem update_shareholder_empty_404_after_requests (rs : list request)
    (id : string) :
  update_shareholder id empty_update (serve_all rs ∅)
  = (inl (HTTPException 404 (not_found id)), serve_all rs ∅).
Proof.
  apply update_shareholder_empty_ObjectId_keys.
  assert (Hinv : ∀ rs c, ObjectId_keys c → ObjectId_keys (serve_all rs c)).
  { clear. intros rs. induction rs as [|r rs IH]; intros c Hc; [done|].
    rewrite serve_all_cons. apply IH, serve_ObjectId_keys, Hc. }
  apply Hinv, ObjectId_keys_empty.
Qed.

(** X16. The [$set] of an update holds one entry for each field of the
    payload that is not null, and no other: an empty string, a zero
    and an empty list are values like any other, and the payload
    counts as empty only when its three fields are all null. *)
Theorem non_null_fields_counts_given (u : UpdateShareholderModel.t) :
  size (non_null_fields u) = fields_given u
  ∧ (non_null_fields u = ∅ ↔ u = empty_update)
  ∧ non_null_fields falsy_update
    = <["name" := VStr ""]>
        (<["shares" := VInt 0]> (<["transactions" := VList []]> ∅)).
Proof.
  split; [|split].
  - destruct u as [[n|] [s|] [l|]]; reflexivity.
  - split.
    + intros Hempty.
      assert (Hk : ∀ k, non_null_fields u !! k = None)
        by (intros k; by rewrite Hempty, lookup_empty).
      pose proof (Hk "name") as Hn.
      pose proof (Hk "shares") as Hs.
      pose proof (Hk "transactions") as Hl.
      rewrite non_null_fields_lookup in Hn, Hs, Hl. cbn in Hn, Hs, Hl.
      clear Hempty Hk.
      destruct u as [[n|] [s|] [l|]]; cbn in Hn, Hs, Hl;
        first [discriminate Hn | discriminate Hs | discriminate Hl
              | reflexivity].
    + intros ->. reflexivity.
  - reflexivity.
Qed.

(** ** Server errors *)




Lemma bson_encodable_union (a b : gmap string value) :
  bson_encodable a = true → bson_encodable b = true →
  bson_encodable (a ∪ b) = true.
Proof.
  rewrite !bson_encodable_true. intros Ha Hb k v Hk.
  apply lookup_union_Some_raw in Hk as [Hk|[_ Hk]]; eauto.
Qed.

Lemma encodable_records_insert k f (c : collection) :
  encodable_records c → bson_encodable f = true →
  encodable_records (<[k := f]> c).
Proof.
  intros Hc Hf k' f'. rewrite lookup_insert. case_decide.
  - by intros [= <-].
  - apply Hc.
Qed.

Lemma encodable_records_delete k (c : collection) :
  encodable_records c → encodable_records (delete k c).
Proof.
  intros Hc k' f'. rewrite lookup_delete. case_decide; [done|]. apply Hc.
Qed.

Lemma find_one_and_update_encodable k upd (c : collection) :
  encodable_records c → encodable_records (find_one_and_update k upd c).2.
Proof.
  intros Hc. unfold find_one_and_update.
  destruct (bson_encodable upd) eqn:Hupd; [|exact Hc].
  destruct (c !! k) as [f|] eqn:Hf; cbn [snd]; [|exact Hc].
  apply encodable_records_insert; [exact Hc|].
  apply bson_encodable_union; [exact Hupd | exact (Hc _ _ Hf)].
Qed.

Lemma serve_encodable_records (r : request) (c : collection) :
  encodable_records c → encodable_records (serve r c).
Proof.
  intros Hc.
  destruct r as [|id| |oid sh|id|id u|id v]; cbn [serve].
  - exact Hc.
  - rewrite get_shareholder_reads. exact Hc.
  - exact Hc.
  - rewrite create_shareholder_run.
    destruct (bson_encodable _) eqn:He; [|exact Hc].
    destruct (c !! IdObjectId oid); [exact Hc|]. cbn [snd].
    by apply encodable_records_insert.
  - destruct (delete_shareholder_outcome id c) as [[o ->]|[e ->]];
      cbn [snd]; [|exact Hc].
    apply encodable_records_delete, Hc.
  - unfold update_shareholder. cbv zeta.
    destruct (Nat.leb 1 (size (non_null_fields u))).
    + unfold bind, lift, ret, raise.
      destruct (ObjectId_new id) as [e|o]; [exact Hc|].
      pose proof (find_one_and_update_encodable (IdObjectId o)
                    (non_null_fields u) c Hc) as H.
      destruct (find_one_and_update _ _ c) as [[e|[d|]] c']; exact H.
    + run_handler. destruct (c !! IdStr id); exact Hc.
  - unfold append_transaction, append_transaction_among.
    unfold bind, lift, ret, raise, suspended, find_one.
    destruct (ObjectId_new id) as [e|o]; [exact Hc|].
    destruct (c !! IdObjectId o) as [f|]; cbn [fmap option_fmap option_map];
      [|exact Hc].
    destruct (py_add _ (VList [v])) as [e|ut]; [exact Hc|].
    destruct (py_add _ (VInt v)) as [e|us]; [exact Hc|].
    pose proof (find_one_and_update_encodable (IdObjectId o)
                  (<["transactions" := ut]> (<["shares" := us]> ∅)) c Hc)
      as H.
    destruct (find_one_and_update _ _ c) as [[e|[d|]] c']; exact H.
Qed.

(** X20. The integers of the stored records keep fitting in 64 bits
    through any sequence of requests: a write the driver cannot encode
    never reaches the store. *)
Theorem serve_all_keeps_encodable_records (rs : list request)
    (c : collection) :
  encodable_records c → encodable_records (serve_all rs c).
Proof.
  revert c. induction rs as [|r rs IH]; intros c Hc; [exact Hc|].
  rewrite serve_all_cons. apply IH, serve_encodable_records, Hc.
Qed.

Lemma encodable_records_empty : encodable_records ∅.
Proof. intros k f. by rewrite lookup_empty. Qed.

Lemma serve_all_keeps_encodable_records_witness :
  encodable_records ∅
  ∧ encodable_records
      (serve_all [CreateShareholder alice_oid alice;
                  AppendTransaction alice_id (-20);
                  UpdateShareholder alice_id shares_5] ∅).
Proof.
  split; [apply encodable_records_empty|].
  apply (serve_all_keeps_encodable_records _ ∅ encodable_records_empty).
Defined.

(** ** Append on a record with an entry of another type *)

(** X14. [dict.get] falls back on its default only for a missing key:
    when the stored [transactions] is a null, a string or an integer,
    or the stored [shares] is a null, a string or a list,
    [append_transaction] raises [TypeError] and writes nothing. *)
Theorem append_transaction_TypeError (id : string) (o : ObjectId) (v : Z)
    (c : collection) (f : gmap string value) :
  ObjectId_of_str id = Some o →
  c !! IdObjectId o = Some f →
  (f !! "transactions" = Some VNone
   ∨ (∃ t, f !! "transactions" = Some (VStr t))
   ∨ (∃ n, f !! "transactions" = Some (VInt n)))
  ∨ (f !! "shares" = Some VNone
     ∨ (∃ t, f !! "shares" = Some (VStr t))
     ∨ (∃ l, f !! "shares" = Some (VList l))) →
  append_transaction id v c = (inl TypeError, c).
Proof.
  intros Hid Hf Hbad.
  unfold append_transaction, append_transaction_among. run_handler.
  rewrite (ObjectId_new_parsed _ _ Hid), Hf.
  cbn [fmap option_fmap option_map]. unfold dict_get. cbn [doc_fields].
  destruct Hbad as [[Ht|[[t Ht]|[n Ht]]]|[Hs|[[t Hs]|[l Hs]]]].
  - by rewrite Ht.
  - by rewrite Ht.
  - by rewrite Ht.
  - rewrite Hs. by destruct (f !! "transactions") as [[| | |l]|].
  - rewrite Hs. by destruct (f !! "transactions") as [[| | |l]|].
  - rewrite Hs. by destruct (f !! "transactions") as [[| | |l']|].
Qed.

Lemma append_transaction_TypeError_witness :
  ObjectId_of_str alice_id = Some alice_oid
  ∧ null_transactions !! IdObjectId alice_oid
    = Some (<["transactions" := VNone]>
              (ShareholderModel.model_dump_exclude_id alice))
  ∧ append_transaction alice_id 7 null_transactions
    = (inl TypeError, null_transactions).
Proof.
  split; [reflexivity|]. split; [apply lookup_singleton_eq|].
  apply (append_transaction_TypeError alice_id alice_oid 7 null_transactions
           (<["transactions" := VNone]>
              (ShareholderModel.model_dump_exclude_id alice)));
    [reflexivity | apply lookup_singleton_eq |].
  left. left. reflexivity.
Defined.

(** ** Integers the driver cannot encode *)

(** X21. An integer outside 64 bits never reaches the store: a create
    or an update with a field given whose payload holds one, and an
    append whose value or new total is one, raise [OverflowError] and
    leave the collection as it was; for the update, whether or not a
    record is stored under the id. *)
Theorem OverflowError_writes_nothing (c : collection) :
  (∀ oid sh,
     int64 (ShareholderModel.shares sh)
     && forallb int64 (ShareholderModel.transactions sh) = false →
     create_shareholder oid sh c = (inl OverflowError, c))
  ∧ (∀ id o u,
       ObjectId_of_str id = Some o →
       is_Some (UpdateShareholderModel.name u)
       ∨ is_Some (UpdateShareholderModel.shares u)
       ∨ is_Some (UpdateShareholderModel.transactions u) →
       bson_encodable (non_null_fields u) = false →
       update_shareholder id u c = (inl OverflowError, c))
  ∧ (∀ id o v f s l,
       ObjectId_of_str id = Some o →
       c !! IdObjectId o = Some f →
       f !! "shares" = Some (VInt s) →
       f !! "transactions" = Some (VList l) →
       int64 (s + v) && forallb int64 (l ++ [v]) = false →
       append_transaction id v c = (inl OverflowError, c)).
Proof.
  split; [|split].
  - intros oid sh H.
    by rewrite create_shareholder_run, bson_encodable_model_dump, H.
  - intros id o u Hid Hu H.
    by rewrite (update_shareholder_nonempty id o c u Hid
                  (size_non_null_fields u Hu)), H.
  - intros id o v f s l Hid Hf Hs Hl H.
    by rewrite (append_transaction_typed id o v c f s l Hid Hf Hs Hl), H.
Qed.

Lemma OverflowError_writes_nothing_witness :
  create_shareholder alice_oid too_big max_shares
  = (inl OverflowError, max_shares)
  ∧ append_transaction alice_id 1 max_shares = (inl OverflowError, max_shares).
Proof.
  destruct (OverflowError_writes_nothing max_shares) as (H1 & _ & H3).
  split; [apply H1; reflexivity|].
  apply (H3 alice_id alice_oid 1%Z
           (<["shares" := VInt (2 ^ 63 - 1)]>
              (ShareholderModel.model_dump_exclude_id alice))
           (2 ^ 63 - 1)%Z [100%Z]);
    [reflexivity | apply lookup_singleton_eq | reflexivity | reflexivity
     | reflexivity].
Defined.

(** ** A write, then a failed answer *)


(** ** Update and the running total *)



(** ** Create, with another request in between *)



(** ** Append, with another request in between *)



(** ** After a delete *)



End Served.

(** * The scenarios, answered

    The statements above hold for every reading of the coercion of
    strings by the response model.  The instances below take the one
    that coerces none; the documents of the scenarios hold no string
    where an integer is expected. *)

Lemma get_shareholder_200_iff_stored_witness :
  ObjectId_of_str alice_id = Some alice_oid
  ∧ get_shareholder alice_id alice_only
    = (inr (Document (IdObjectId alice_oid)
              (ShareholderModel.model_dump_exclude_id alice)), alice_only)
  ∧ @http_status document (document_model (λ _, None)) 200
      (get_shareholder alice_id alice_only).1 = 200.
Proof.
  split; [reflexivity|].
  destruct (get_shareholder_200_iff_stored (λ _, None) alice_id alice_oid
              alice_only alice_id_parsed) as (H1 & _ & _ & H4 & _).
  split; [apply H1, alice_only_lookup|].
  apply (H4 _ alice_only_lookup). reflexivity.
Defined.

(** C6, where the claim fails: the record stored under the id holds a
    name and nothing else; the handler finds and returns it, and the
    request is answered 500, neither 200 nor 404. *)
Lemma get_shareholder_200_iff_stored_counterexample :
  ObjectId_of_str alice_id = Some alice_oid
  ∧ name_only !! IdObjectId alice_oid = Some {[ "name" := VStr "Alice" ]}
  ∧ get_shareholder alice_id name_only
    = (inr (Document (IdObjectId alice_oid) {[ "name" := VStr "Alice" ]}),
       name_only)
  ∧ (∀ int_from_str,
       @http_status document (document_model int_from_str) 200
         (get_shareholder alice_id name_only).1 = 500).
Proof.
  split; [reflexivity|]. split; [apply lookup_singleton_eq|].
  assert (Hrun : get_shareholder alice_id name_only
                 = (inr (Document (IdObjectId alice_oid)
                           {[ "name" := VStr "Alice" ]}), name_only)).
  { rewrite (get_shareholder_run alice_id alice_oid name_only
               alice_id_parsed).
    unfold name_only. by rewrite lookup_singleton_eq. }
  split; [exact Hrun|]. intros int_from_str. rewrite Hrun. reflexivity.
Qed.

(** C7, where the claim fails: on a collection whose one record holds a
    name and nothing else, the handler returns the list of that
    record, and the request is answered 500. *)
Lemma get_all_shareholders_never_fails_counterexample :
  (get_all_shareholders name_only).1
  = inr [Document (IdObjectId alice_oid) {[ "name" := VStr "Alice" ]}]
  ∧ (∀ int_from_str,
       @http_status (list document) (list_document_model int_from_str) 200
         (get_all_shareholders name_only).1 = 500).
Proof.
  assert (Hrun : (get_all_shareholders name_only).1
                 = inr [Document (IdObjectId alice_oid)
                          {[ "name" := VStr "Alice" ]}]).
  { vm_compute. reflexivity. }
  split; [exact Hrun|]. intros int_from_str. rewrite Hrun. reflexivity.
Qed.


Lemma append_transaction_404_checks_witness :
  ObjectId_of_str alice_id = Some alice_oid
  ∧ append_transaction_among (delete (IdObjectId alice_oid)) alice_id (-20)
      alice_only
    = (inl (HTTPException 404 (not_found alice_id)), ∅)
  ∧ append_transaction alice_id (-20) ∅
    = (inl (HTTPException 404 (not_found alice_id)), ∅).
Proof.
  split; [reflexivity|].
  destruct (append_transaction_404_checks (λ _, None) alice_id alice_oid (-20)
              alice_id_parsed) as (H1 & H2 & _).
  split.
  - rewrite (H2 (delete (IdObjectId alice_oid)) alice_only
               (ShareholderModel.model_dump_exclude_id alice)
               (VList [100; -20]%Z) (VInt 80)
               alice_only_lookup eq_refl eq_refl);
      [reflexivity | reflexivity | apply lookup_delete_eq].
  - apply (H1 (λ c, c) ∅). apply lookup_empty.
Defined.


Lemma malformed_id_raises_InvalidId_witness :
  surely_malformed malformed_id = true
  ∧ get_shareholder malformed_id alice_only
    = (inl (InvalidId malformed_id), alice_only)
  ∧ append_transaction malformed_id 1 alice_only
    = (inl (InvalidId malformed_id), alice_only).
Proof.
  split; [reflexivity|].
  destruct (malformed_id_raises_InvalidId (λ _, None) malformed_id alice_only)
    as (H1 & _ & H3 & _); [reflexivity|].
  split; [exact H1 | exact (H3 1%Z)].
Defined.

Lemma handle_writes_only_on_success_witness :
  shareholder_records ∅
  ∧ (handle (λ _, None) (CreateShareholder alice_oid alice) ∅).2 ≠ ∅
  ∧ (handle (λ _, None) (CreateShareholder alice_oid alice) ∅).1 < 400.
Proof.
  assert (H : (handle (λ _, None) (CreateShareholder alice_oid alice) ∅).2
              ≠ ∅).
  { unfold handle. cbn [snd]. unfold serve.
    rewrite (create_shareholder_fresh _ _ _ (lookup_empty _) alice_encodable).
    cbn [snd]. apply insert_non_empty. }
  split; [apply shareholder_records_empty|]. split; [exact H|].
  apply (handle_writes_only_on_success (λ _, None)
           (CreateShareholder alice_oid alice) ∅
           shareholder_records_empty H).
Defined.



